(** * The default page block's mouse manager

    A shallow embedding of
    [packages/blocks/src/page-block/default/mouse-manager.ts]:
    the selection state [PageSelection] and the drag coordinator
    [DefaultMouseManager], with the browser and the editor's other
    modules as an explicit platform. *)

From Stdlib Require Import ZArith String List Bool Lia.
Import ListNotations.
Local Open Scope string_scope.
Local Open Scope list_scope.
Local Open Scope Z_scope.

Set Implicit Arguments.

(** ** The platform: DOM nodes, ranges, rectangles, block models *)

(** What the handlers can tell about a DOM node by [instanceof]. *)
Inductive NodeClass :=
| HTMLInputElementClass
| HTMLElementClass
| OtherElementClass
| TextClass.

Record Node := mkNode {
  nodeId : Z;
  nodeClass : NodeClass;
  tagName : string;
  className : string
}.

Definition instanceofHTMLElement (n : Node) : bool :=
  match nodeClass n with
  | HTMLInputElementClass | HTMLElementClass => true
  | _ => false
  end.

Definition instanceofHTMLInputElement (n : Node) : bool :=
  match nodeClass n with
  | HTMLInputElementClass => true
  | _ => false
  end.

Definition NodeClass_eq_dec (a b : NodeClass) : {a = b} + {a <> b}.
Proof. decide equality. Defined.

Definition Node_eq_dec (a b : Node) : {a = b} + {a <> b}.
Proof.
  decide equality;
    [apply string_dec | apply string_dec | apply NodeClass_eq_dec | apply Z.eq_dec].
Defined.

(** [String.prototype.includes]. *)
Definition includes (s pat : string) : bool :=
  match String.index 0 pat s with
  | Some _ => true
  | None => false
  end.

(** A DOM [Range]: two boundary points, each a container and an offset. *)
Record Range := mkRange {
  startContainer : Node;
  startOffset : Z;
  endContainer : Node;
  endOffset : Z
}.

Record Point := mkPoint { x : Z; y : Z }.

(** [DOMRect]: the constructor takes [(x, y, width, height)]; [left] and
    [top] are the getters [min(x, x + width)] and [min(y, y + height)]. *)
Module DOMRect.
Record t := new { x : Z; y : Z; width : Z; height : Z }.
Definition left (r : t) : Z := Z.min (x r) (x r + width r).
Definition top (r : t) : Z := Z.min (y r) (y r + height r).
End DOMRect.

(** A block model of the store, with the two fields the handlers read. *)
Record BaseBlockModel := mkModel {
  id : string;
  flavour : string
}.

Record Store := mkStore { root : option BaseBlockModel }.

(** The browser and the rest of the editor, as seen at one event. *)
Record Platform := mkPlatform {
  (** the hit test behind [caretRangeFromPoint] *)
  hitTest : Z -> Z -> option Range;
  (** [window.getComputedStyle(el).cursor] *)
  computedCursor : Node -> string;
  (** position of the boundary point [(a, i)] relative to [(b, j)] for
      distinct nodes [a], [b] in tree order; [None] when their roots
      differ *)
  crossPosition : Node -> Z -> Node -> Z -> option comparison;
  store : Store;
  (** [model.lastChild()]: a method of the store's model class, which
      lives outside this file; its result is taken as given *)
  lastChild : BaseBlockModel -> option BaseBlockModel;
  (** the rendered element of a block model *)
  blockElement : BaseBlockModel -> Node
}.

(** Position of one boundary point relative to another (DOM Standard,
    "position of a boundary point"): in one node the offsets decide. *)
Definition position (env : Platform) (a : Node) (i : Z) (b : Node) (j : Z)
  : option comparison :=
  if Node_eq_dec a b then Some (Z.compare i j) else crossPosition env a i b j.

(** [Range.prototype.setStart] (DOM Standard, "set the start of a range"):
    the start becomes the boundary point [(node, offset)]; when the roots
    differ or the new start is after the range's end, the end moves to the
    same boundary point. The two throwing cases (a doctype node, an offset
    beyond the node's length) are left out: the only caller passes the
    start of a live range, which the DOM keeps a valid boundary point. *)
Definition setStart (env : Platform) (r : Range) (node : Node) (offset : Z)
  : Range :=
  match position env node offset (endContainer r) (endOffset r) with
  | Some Lt | Some Eq => mkRange node offset (endContainer r) (endOffset r)
  | Some Gt | None => mkRange node offset node offset
  end.

Record MouseEvent := mkMouseEvent {
  target : Node;
  clientX : Z;
  clientY : Z
}.

Record Keys := mkKeys { shift : bool }.

Record SelectionEvent := mkSelectionEvent {
  raw : MouseEvent;
  keys : Keys
}.

(** ** The selection state *)

Inductive PageSelectionType := native | block | none.

Record PageSelection := mkPageSelection {
  type : PageSelectionType;
  _startRange : option Range;
  _startPoint : option Point
}.

(** [new PageSelection(type)] *)
Definition newPageSelection (t : PageSelectionType) : PageSelection :=
  mkPageSelection t None None.

Definition startRange (s : PageSelection) : option Range := _startRange s.
Definition startPoint (s : PageSelection) : option Point := _startPoint s.

(** ** Calls to collaborators and the handler monad *)

(** What a handler does to the outside, in order. *)
Inductive Call :=
| caretRangeFromPoint_call (cx cy : Z) (result : option Range)
| resetNativeSeletion_call (range : option Range)
| updateSelectionRect_emit (rect : option DOMRect.t)
| getBlockElementByModel_call (model : BaseBlockModel) (result : Node)
| focusRichTextByOffset_call (el : Node) (cx : Z).

Inductive Completion (A : Type) :=
| Normal (a : A)
| Throw (msg : string).
Arguments Throw {A} msg.

(** The outcome of running a piece of handler code: how it completed, the
    selection state it left (writes made before a throw stay), and the
    calls it made. *)
Record Run (A : Type) := mkRun {
  completion : Completion A;
  selection : PageSelection;
  calls : list Call
}.

Definition M (A : Type) : Type := Platform -> PageSelection -> Run A.

Definition ret {A} (a : A) : M A :=
  fun _ s => mkRun (Normal a) s [].

Definition bind {A B} (m : M A) (k : A -> M B) : M B :=
  fun env s =>
    let r := m env s in
    match completion r with
    | Normal a =>
        let r' := k a env (selection r) in
        mkRun (completion r') (selection r') (calls r ++ calls r')
    | Throw msg => mkRun (Throw msg) (selection r) (calls r)
    end.

Declare Scope handler_scope.
Delimit Scope handler_scope with handler.
Notation "v <- m ;; k" := (bind m (fun v => k))
  (at level 61, m at next level, right associativity) : handler_scope.
Notation "m ;; k" := (bind m (fun _ => k))
  (at level 61, right associativity) : handler_scope.
Local Open Scope handler_scope.

Definition this_selection : M PageSelection :=
  fun _ s => mkRun (Normal s) s [].

Definition modify (f : PageSelection -> PageSelection) : M unit :=
  fun _ s => mkRun (Normal tt) (f s) [].

Definition platform : M Platform :=
  fun env s => mkRun (Normal env) s [].

Definition call (c : Call) : M unit :=
  fun _ s => mkRun (Normal tt) s [c].

Definition throw {A} (msg : string) : M A :=
  fun _ s => mkRun (Throw msg) s [].

Definition set_type (t : PageSelectionType) : M unit :=
  modify (fun s => mkPageSelection t (_startRange s) (_startPoint s)).

(** ** Imports from [__internal__] *)

Definition caretRangeFromPoint (cx cy : Z) : M (option Range) :=
  env <- platform ;;
  call (caretRangeFromPoint_call cx cy (hitTest env cx cy)) ;;
  ret (hitTest env cx cy).

Definition resetNativeSeletion (range : option Range) : M unit :=
  call (resetNativeSeletion_call range).

Definition focusRichTextByOffset (el : Node) (cx : Z) : M unit :=
  call (focusRichTextByOffset_call el cx).

Definition getBlockElementByModel (model : BaseBlockModel) : M Node :=
  env <- platform ;;
  call (getBlockElementByModel_call model (blockElement env model)) ;;
  ret (blockElement env model).

Definition noop : M unit := ret tt.

(** Modelled from the spec: [assertExists] is imported from
    [__internal__], which is not part of this file. A missing value is "a
    programming-error fault, not a recoverable condition", an "assertion
    failure surfaced immediately": it throws on [null] and hands the value
    on otherwise. *)
Definition assertExists {A} (val : option A) : M A :=
  match val with
  | Some a => ret a
  | None => throw "val does not exist"
  end.

(** ** mouse-manager.ts *)

Definition isBlankAreaBetweenBlocks (startContainer : Node) : bool :=
  if negb (instanceofHTMLElement startContainer) then false
  else includes (className startContainer) "affine-paragraph-block-container".

Definition isBlankAreaAfterLastBlock (startContainer : Node) : bool :=
  String.eqb (tagName startContainer) "GROUP-BLOCK".

Definition isBlankAreaBeforeFirstBlock (startContainer : Node) : bool :=
  if negb (instanceofHTMLElement startContainer) then false
  else includes (className startContainer) "affine-group-block-container".

Definition isBlankArea (env : Platform) (e : SelectionEvent) : bool :=
  String.eqb (computedCursor env (target (raw e))) "default".

Definition createSelectionRect (current start : Point) : DOMRect.t :=
  let width := Z.abs (x current - x start) in
  let height := Z.abs (y current - y start) in
  let left := Z.min (x current) (x start) in
  let top := Z.min (y current) (y start) in
  DOMRect.new left top width height.

Module PageSelectionMethods.

Definition resetStartRange (e : SelectionEvent) : M unit :=
  r <- caretRangeFromPoint (clientX (raw e)) (clientY (raw e)) ;;
  modify (fun s => mkPageSelection (type s) r (_startPoint s)) ;;
  modify (fun s => mkPageSelection (type s) (_startRange s)
                     (Some (mkPoint (clientX (raw e)) (clientY (raw e))))).

Definition clear : M unit :=
  modify (fun s => mkPageSelection (type s) None (_startPoint s)) ;;
  modify (fun s => mkPageSelection (type s) (_startRange s) None).

End PageSelectionMethods.
Import PageSelectionMethods.

Definition _onBlockDragStart (e : SelectionEvent) : M unit :=
  set_type block ;;
  resetStartRange e ;;
  resetNativeSeletion None.

Definition _onBlockDragMove (e : SelectionEvent) : M unit :=
  s <- this_selection ;;
  start <- assertExists (startPoint s) ;;
  let current := mkPoint (clientX (raw e)) (clientY (raw e)) in
  let selectionRect := createSelectionRect current start in
  call (updateSelectionRect_emit (Some selectionRect)).

Definition _onBlockDragEnd (e : SelectionEvent) : M unit :=
  clear ;;
  call (updateSelectionRect_emit None).

Definition _onNativeDragStart (e : SelectionEvent) : M unit :=
  set_type native.

Definition _onNativeDragMove (e : SelectionEvent) : M unit :=
  s <- this_selection ;;
  anchor <- assertExists (startRange s) ;;
  env <- platform ;;
  currentRange <- caretRangeFromPoint (clientX (raw e)) (clientY (raw e)) ;;
  let currentRange :=
    option_map
      (fun r => setStart env r (startContainer anchor) (startOffset anchor))
      currentRange in
  resetNativeSeletion currentRange.

Definition _onNativeDragEnd (e : SelectionEvent) : M unit :=
  noop.

Definition _onContainerDragStart (e : SelectionEvent) : M unit :=
  resetStartRange e ;;
  env <- platform ;;
  if isBlankArea env e then _onBlockDragStart e
  else _onNativeDragStart e.

Definition _onContainerDragMove (e : SelectionEvent) : M unit :=
  s <- this_selection ;;
  match type s with
  | native => _onNativeDragMove e
  | block => _onBlockDragMove e
  | none => ret tt
  end.

Definition _onContainerDragEnd (e : SelectionEvent) : M unit :=
  s <- this_selection ;;
  match type s with
  | native => _onNativeDragEnd e
  | block => _onBlockDragEnd e
  | none => ret tt
  end ;;
  set_type none ;;
  clear.

Definition instanceofNode (v : option Node) : bool :=
  match v with
  | Some _ => true
  | None => false
  end.

(** [v instanceof HTMLElement], narrowing [v] where it holds. *)
Definition asHTMLElement (v : option Node) : option Node :=
  match v with
  | Some n => if instanceofHTMLElement n then Some n else None
  | None => None
  end.

Definition _onContainerClick (e : SelectionEvent) : M unit :=
  set_type none ;;
  if String.eqb (tagName (target (raw e))) "DEBUG-MENU" then ret tt
  else if instanceofHTMLInputElement (target (raw e)) then ret tt
  else if shift (keys e) then ret tt
  else
    range <- caretRangeFromPoint (clientX (raw e)) (clientY (raw e)) ;;
    let startContainer := option_map startContainer range in
    (if instanceofNode startContainer then resetNativeSeletion range
     else ret tt) ;;
    match asHTMLElement startContainer with
    | None => ret tt
    | Some startContainer =>
        if isBlankAreaBetweenBlocks startContainer
           || isBlankAreaBeforeFirstBlock startContainer
        then focusRichTextByOffset startContainer (clientX (raw e))
        else if isBlankAreaAfterLastBlock startContainer then
          env <- platform ;;
          let lastChild :=
            match root (store env) with
            | Some r => lastChild env r
            | None => None
            end in
          match lastChild with
          | Some l =>
              if String.eqb (flavour l) "paragraph"
                 || String.eqb (flavour l) "list"
              then
                block <- getBlockElementByModel l ;;
                focusRichTextByOffset block (clientX (raw e))
              else ret tt
          | None => ret tt
          end
        else ret tt
    end.

Definition _onContainerDblClick (e : SelectionEvent) : M unit := ret tt.
Definition _onContainerMouseMove (e : SelectionEvent) : M unit := ret tt.
Definition _onContainerMouseOut (e : SelectionEvent) : M unit := ret tt.

(** ** The input source *)

(** The callbacks registered with [initMouseEventHandlers], in order. *)
Inductive Callback :=
| DragStart | DragMove | DragEnd | Click | DblClick | MouseMove | MouseOut.

Definition handler (k : Callback) : SelectionEvent -> M unit :=
  match k with
  | DragStart => _onContainerDragStart
  | DragMove => _onContainerDragMove
  | DragEnd => _onContainerDragEnd
  | Click => _onContainerClick
  | DblClick => _onContainerDblClick
  | MouseMove => _onContainerMouseMove
  | MouseOut => _onContainerMouseOut
  end.

(** One callback invocation: which callback, with which event, and the
    platform as it is at that moment. *)
Record Delivery := mkDelivery {
  callback : Callback;
  env_at : Platform;
  event : SelectionEvent
}.

Definition deliver (d : Delivery) (s : PageSelection) : Run unit :=
  handler (callback d) (event d) (env_at d) s.

(** The selection state after a sequence of deliveries. A handler that
    throws ends its own invocation only: the next event is delivered to
    the state it left. *)
Fixpoint run_state (ds : list Delivery) (s : PageSelection) : PageSelection :=
  match ds with
  | [] => s
  | d :: ds' => run_state ds' (selection (deliver d s))
  end.

(** All calls made over a sequence of deliveries, in order. *)
Fixpoint run_calls (ds : list Delivery) (s : PageSelection) : list Call :=
  match ds with
  | [] => []
  | d :: ds' =>
      calls (deliver d s) ++ run_calls ds' (selection (deliver d s))
  end.

(** The drag protocol of the input source: start, moves, end; clicks only
    between drags; the inert callbacks anywhere. *)
Inductive Phase :=
| Idle
| Dragging (env0 : Platform) (e0 : SelectionEvent).

Definition phase_step (ph : Phase) (d : Delivery) : option Phase :=
  match callback d, ph with
  | DragStart, Idle => Some (Dragging (env_at d) (event d))
  | DragMove, Dragging _ _ => Some ph
  | DragEnd, Dragging _ _ => Some Idle
  | Click, Idle => Some Idle
  | (DblClick | MouseMove | MouseOut), _ => Some ph
  | _, _ => None
  end.

Fixpoint phase_after (ph : Phase) (ds : list Delivery) : option Phase :=
  match ds with
  | [] => Some ph
  | d :: ds' =>
      match phase_step ph d with
      | Some ph' => phase_after ph' ds'
      | None => None
      end
  end.

(** The deliveries of one drag gesture. *)
Definition during_drag (d : Delivery) : bool :=
  match callback d with
  | DragMove | DblClick | MouseMove | MouseOut => true
  | _ => false
  end.

Definition drag (env0 : Platform) (e0 : SelectionEvent)
    (mid : list Delivery) (env1 : Platform) (e1 : SelectionEvent)
  : list Delivery :=
  mkDelivery DragStart env0 e0 :: mid ++ [mkDelivery DragEnd env1 e1].

(** ** The native selection, as the calls leave it *)

Inductive NativeSelection :=
| Cleared
| Applied (r : Range)
| CaretByOffset (el : Node) (cx : Z).

(** Modelled from the spec: [resetNativeSeletion] and
    [focusRichTextByOffset] are imported from [__internal__], which is not
    part of this file. The selection-apply function "accepts a
    text-position pair (or null) and makes it the active visible selection;
    accepts null to clear it"; the element-focus function "places a caret
    at the nearest character offset". *)
Definition perform (sel : NativeSelection) (c : Call) : NativeSelection :=
  match c with
  | resetNativeSeletion_call None => Cleared
  | resetNativeSeletion_call (Some r) => Applied r
  | focusRichTextByOffset_call el cx => CaretByOffset el cx
  | _ => sel
  end.

Definition nativeSelectionAfter (sel : NativeSelection) (cs : list Call)
  : NativeSelection :=
  fold_left perform cs sel.

(** The pointer position an event carries. *)
Definition pointOf (e : SelectionEvent) : Point :=
  mkPoint (clientX (raw e)) (clientY (raw e)).

(** What the selection state looks like in each phase of the protocol. *)
Definition in_phase (ph : Phase) (s : PageSelection) : Prop :=
  match ph with
  | Idle => type s = none /\ startPoint s = None /\ startRange s = None
  | Dragging env0 e0 =>
      (isBlankArea env0 e0 = true /\ type s = block) \/
      (isBlankArea env0 e0 = false /\ type s = native)
  end.

(** ** A sample page *)

Module Sample.

Definition textNode : Node := mkNode 1 TextClass "" "".
Definition richText : Node :=
  mkNode 2 HTMLElementClass "RICH-TEXT" "affine-rich-text".
Definition gap : Node :=
  mkNode 3 HTMLElementClass "DIV" "affine-paragraph-block-container".
Definition groupBlock : Node := mkNode 4 HTMLElementClass "GROUP-BLOCK" "".
Definition paragraphBlock : Node :=
  mkNode 5 HTMLElementClass "PARAGRAPH-BLOCK" "".

Definition caret (n : Node) (offset : Z) : Range :=
  mkRange n offset n offset.

Definition pageModel : BaseBlockModel := mkModel "0" "page".

(** One line of text in [textNode], the caret offset being the
    horizontal coordinate; nothing is hit above the page, and below
    [100] the hit lands in the group element. *)
Definition page (lastFlavour : string) : Platform :=
  {| hitTest := fun cx cy =>
       if cy <? 0 then None
       else if cy <? 100 then Some (caret textNode cx)
       else Some (caret groupBlock 0);
     computedCursor := fun n =>
       if String.eqb (tagName n) "RICH-TEXT" then "text" else "default";
     crossPosition := fun a _ b _ => Some (Z.compare (nodeId a) (nodeId b));
     store := mkStore (Some pageModel);
     lastChild := fun _ => Some (mkModel "2" lastFlavour);
     blockElement := fun _ => paragraphBlock |}.

Definition at_ (tgt : Node) (cx cy : Z) (withShift : bool) : SelectionEvent :=
  mkSelectionEvent (mkMouseEvent tgt cx cy) (mkKeys withShift).

End Sample.

(** The callbacks whose handlers have empty bodies. *)
Definition inert (d : Delivery) : bool :=
  match callback d with
  | DblClick | MouseMove | MouseOut => true
  | _ => false
  end.

(** ** Proof automation *)

(** Unfolds the monad under a handler, then splits on every test left. *)
Ltac step_handlers :=
  cbv beta iota zeta delta
    [_onContainerClick bind set_type modify caretRangeFromPoint
     getBlockElementByModel resetNativeSeletion focusRichTextByOffset
     platform call ret completion selection calls app option_map
     instanceofNode asHTMLElement].

Ltac split_branches :=
  step_handlers;
  repeat (match goal with
          | |- context [if ?b then _ else _] => destruct b eqn:?
          | |- context [match ?o with Some _ => _ | None => _ end] =>
              destruct o eqn:?
          end; step_handlers).

(** * Properties *)

(** ** What each handler does, in closed form *)

Section Handlers.

Variable env : Platform.
Variable e : SelectionEvent.
Variable s : PageSelection.

Local Abbreviation cx := (clientX (raw e)).
Local Abbreviation cy := (clientY (raw e)).
Local Abbreviation hit := (caretRangeFromPoint_call cx cy (hitTest env cx cy)).

Lemma resetStartRange_run :
  resetStartRange e env s =
  mkRun (Normal tt)
    (mkPageSelection (type s) (hitTest env cx cy) (Some (mkPoint cx cy)))
    [hit].
Proof. reflexivity. Qed.

Lemma clear_run :
  clear env s = mkRun (Normal tt) (mkPageSelection (type s) None None) [].
Proof. reflexivity. Qed.

Lemma dragStart_run :
  _onContainerDragStart e env s =
  if isBlankArea env e then
    mkRun (Normal tt)
      (mkPageSelection block (hitTest env cx cy) (Some (mkPoint cx cy)))
      [hit; hit; resetNativeSeletion_call None]
  else
    mkRun (Normal tt)
      (mkPageSelection native (hitTest env cx cy) (Some (mkPoint cx cy)))
      [hit].
Proof.
  unfold _onContainerDragStart, bind; rewrite resetStartRange_run.
  cbn [completion selection calls platform].
  destruct (isBlankArea env e); reflexivity.
Qed.

Lemma nativeDragMove_run :
  _onNativeDragMove e env s =
  match startRange s with
  | Some anchor =>
      mkRun (Normal tt) s
        [hit;
         resetNativeSeletion_call
           (option_map
              (fun r => setStart env r (startContainer anchor)
                          (startOffset anchor))
              (hitTest env cx cy))]
  | None => mkRun (Throw "val does not exist") s []
  end.
Proof.
  unfold _onNativeDragMove, bind, this_selection.
  cbn [completion selection calls].
  destruct (startRange s); reflexivity.
Qed.

Lemma blockDragMove_run :
  _onBlockDragMove e env s =
  match startPoint s with
  | Some start =>
      mkRun (Normal tt) s
        [updateSelectionRect_emit
           (Some (createSelectionRect (mkPoint cx cy) start))]
  | None => mkRun (Throw "val does not exist") s []
  end.
Proof.
  unfold _onBlockDragMove, bind, this_selection.
  cbn [completion selection calls].
  destruct (startPoint s); reflexivity.
Qed.

Lemma dragMove_run :
  _onContainerDragMove e env s =
  match type s with
  | native => _onNativeDragMove e env s
  | block => _onBlockDragMove e env s
  | none => mkRun (Normal tt) s []
  end.
Proof.
  unfold _onContainerDragMove, bind, this_selection.
  cbn [completion selection calls].
  destruct (type s).
  - destruct (_onNativeDragMove e env s) as [c s' cs]; reflexivity.
  - destruct (_onBlockDragMove e env s) as [c s' cs]; reflexivity.
  - reflexivity.
Qed.

Lemma dragEnd_run :
  _onContainerDragEnd e env s =
  mkRun (Normal tt) (mkPageSelection none None None)
    match type s with
    | block => [updateSelectionRect_emit None]
    | _ => []
    end.
Proof.
  unfold _onContainerDragEnd, bind, this_selection.
  cbn [completion selection calls].
  destruct (type s); reflexivity.
Qed.

(** A move never writes the selection state, whether it returns or
    throws. *)
Lemma dragMove_selection :
  selection (_onContainerDragMove e env s) = s.
Proof.
  rewrite dragMove_run.
  destruct (type s) eqn:T.
  - rewrite nativeDragMove_run; destruct (startRange s); reflexivity.
  - rewrite blockDragMove_run; destruct (startPoint s); reflexivity.
  - reflexivity.
Qed.

(** [createSelectionRect] through the [DOMRect] getters. *)
Lemma createSelectionRect_getters (current start : Point) :
  let rect := createSelectionRect current start in
  DOMRect.left rect = Z.min (x start) (x current) /\
  DOMRect.top rect = Z.min (y start) (y current) /\
  DOMRect.width rect = Z.abs (x current - x start) /\
  DOMRect.height rect = Z.abs (y current - y start).
Proof.
  unfold createSelectionRect, DOMRect.left, DOMRect.top; cbn.
  repeat split; lia.
Qed.

End Handlers.

(** ** Sequences of deliveries *)

Lemma during_drag_selection (d : Delivery) (s : PageSelection) :
  during_drag d = true -> selection (deliver d s) = s.
Proof.
  destruct d as [k env e]; unfold during_drag, deliver; cbn [callback].
  destruct k; try discriminate; intros _; cbn [handler event env_at];
    [apply dragMove_selection | reflexivity ..].
Qed.

Lemma during_drag_state (ds : list Delivery) (s : PageSelection) :
  forallb during_drag ds = true -> run_state ds s = s.
Proof.
  induction ds as [|d ds IH]; cbn [forallb run_state]; [reflexivity|].
  intros H; apply andb_prop in H as [Hd Hds].
  rewrite during_drag_selection by exact Hd. exact (IH Hds).
Qed.

Lemma run_state_app (ds ds' : list Delivery) (s : PageSelection) :
  run_state (ds ++ ds') s = run_state ds' (run_state ds s).
Proof.
  revert s; induction ds as [|d ds IH]; intros s; cbn; [reflexivity|apply IH].
Qed.

Lemma run_calls_app (ds ds' : list Delivery) (s : PageSelection) :
  run_calls (ds ++ ds') s = run_calls ds s ++ run_calls ds' (run_state ds s).
Proof.
  revert s; induction ds as [|d ds IH]; intros s; cbn; [reflexivity|].
  rewrite IH, app_assoc; reflexivity.
Qed.

(** A click returns, and writes nothing but the mode. *)
Lemma click_selection (env : Platform) (e : SelectionEvent) (s : PageSelection) :
  completion (_onContainerClick e env s) = Normal tt /\
  selection (_onContainerClick e env s) =
    mkPageSelection none (_startRange s) (_startPoint s).
Proof. split_branches; split; reflexivity. Qed.

(** One delivery keeps the selection state in step with the protocol. *)
Lemma phase_step_in_phase (ph ph' : Phase) (d : Delivery) (s : PageSelection) :
  in_phase ph s -> phase_step ph d = Some ph' ->
  in_phase ph' (selection (deliver d s)).
Proof.
  destruct d as [k env e]; unfold phase_step, deliver;
    cbn [callback event env_at].
  intros Hin Hstep.
  destruct k; cbn [handler].
  - (* DragStart *)
    destruct ph; [|discriminate]. injection Hstep as <-.
    rewrite dragStart_run. cbn [in_phase].
    destruct (isBlankArea env e); cbn [selection type]; auto.
  - (* DragMove *)
    destruct ph; [discriminate|]. injection Hstep as <-.
    rewrite dragMove_selection. exact Hin.
  - (* DragEnd *)
    destruct ph; [discriminate|]. injection Hstep as <-.
    rewrite dragEnd_run. cbn. auto.
  - (* Click *)
    destruct ph; [|discriminate]. injection Hstep as <-.
    destruct Hin as (_ & Hp & Hr).
    destruct (click_selection env e s) as [_ ->].
    unfold startPoint, startRange in *; cbn; auto.
  - injection Hstep as <-. exact Hin.
  - injection Hstep as <-. exact Hin.
  - injection Hstep as <-. exact Hin.
Qed.

Lemma phase_after_in_phase (ds : list Delivery) :
  forall ph ph' s,
    in_phase ph s -> phase_after ph ds = Some ph' ->
    in_phase ph' (run_state ds s).
Proof.
  induction ds as [|d ds IH]; intros ph ph' s Hin Hph; cbn in *.
  - injection Hph as <-. exact Hin.
  - destruct (phase_step ph d) as [ph1|] eqn:Hstep; [|discriminate].
    eapply IH; [|exact Hph].
    eapply phase_step_in_phase; eassumption.
Qed.

(** Between a drag's start and its end the calls made depend on the mode
    alone. *)
Lemma native_drag_calls (mid : list Delivery) (s : PageSelection) :
  type s = native -> forallb during_drag mid = true ->
  forall rect, ~ In (updateSelectionRect_emit rect) (run_calls mid s).
Proof.
  intros Ht; induction mid as [|d mid IH]; cbn [forallb run_calls];
    [intros _ rect []|].
  intros H rect Hin; apply andb_prop in H as [Hd Hmid].
  rewrite during_drag_selection in Hin by exact Hd.
  apply in_app_or in Hin as [Hin|Hin]; [|exact (IH Hmid rect Hin)].
  destruct d as [k env e]; unfold during_drag, deliver in *;
    cbn [callback event env_at] in *.
  destruct k; try discriminate; cbn [handler] in Hin; try contradiction.
  rewrite dragMove_run, Ht, nativeDragMove_run in Hin.
  destruct (startRange s); cbn in Hin; intuition discriminate.
Qed.

Lemma block_drag_calls (mid : list Delivery) (s : PageSelection) :
  type s = block -> forallb during_drag mid = true ->
  forall r, ~ In (resetNativeSeletion_call (Some r)) (run_calls mid s).
Proof.
  intros Ht; induction mid as [|d mid IH]; cbn [forallb run_calls];
    [intros _ r []|].
  intros H r Hin; apply andb_prop in H as [Hd Hmid].
  rewrite during_drag_selection in Hin by exact Hd.
  apply in_app_or in Hin as [Hin|Hin]; [|exact (IH Hmid r Hin)].
  destruct d as [k env e]; unfold during_drag, deliver in *;
    cbn [callback event env_at] in *.
  destruct k; try discriminate; cbn [handler] in Hin; try contradiction.
  rewrite dragMove_run, Ht, blockDragMove_run in Hin.
  destruct (startPoint s); cbn in Hin; intuition discriminate.
Qed.

(** ** The claims *)

(** C1. Over every sequence of deliveries that follows the drag protocol,
    run from the freshly constructed selection state: while no drag is in
    progress (before the first start, after every end) the mode is [none]
    and both anchors are null; while a drag is in progress the mode is
    exactly one of [block] and [native], the one its start was classified
    as. *)
Theorem selection_mode_follows_protocol
    (ds : list Delivery) (ph : Phase) :
  phase_after Idle ds = Some ph ->
  let s := run_state ds (newPageSelection none) in
  match ph with
  | Idle => type s = none /\ startPoint s = None /\ startRange s = None
  | Dragging env0 e0 =>
      (isBlankArea env0 e0 = true /\ type s = block) \/
      (isBlankArea env0 e0 = false /\ type s = native)
  end.
Proof.
  intros Hph s.
  eapply phase_after_in_phase; [|exact Hph]. cbn; auto.
Qed.

Lemma selection_mode_follows_protocol_witness :
  let start := mkDelivery DragStart (Sample.page "paragraph")
                 (Sample.at_ Sample.richText 10 10 false) in
  let move := mkDelivery DragMove (Sample.page "paragraph")
                (Sample.at_ Sample.richText 50 80 false) in
  let end_ := mkDelivery DragEnd (Sample.page "paragraph")
                (Sample.at_ Sample.richText 50 80 false) in
  type (run_state [start; move] (newPageSelection none)) = native /\
  run_state [start; move; end_] (newPageSelection none) =
    mkPageSelection none None None.
Proof.
  cbv zeta. split.
  - pose proof (selection_mode_follows_protocol
                  [mkDelivery DragStart (Sample.page "paragraph")
                     (Sample.at_ Sample.richText 10 10 false);
                   mkDelivery DragMove (Sample.page "paragraph")
                     (Sample.at_ Sample.richText 50 80 false)]
                  eq_refl) as H.
    cbv zeta in H. destruct H as [[H _]|[_ H]]; [discriminate H | exact H].
  - pose proof (selection_mode_follows_protocol
                  [mkDelivery DragStart (Sample.page "paragraph")
                     (Sample.at_ Sample.richText 10 10 false);
                   mkDelivery DragMove (Sample.page "paragraph")
                     (Sample.at_ Sample.richText 50 80 false);
                   mkDelivery DragEnd (Sample.page "paragraph")
                     (Sample.at_ Sample.richText 50 80 false)]
                  eq_refl) as H.
    cbv zeta in H. destruct H as (H1 & H2 & H3).
    destruct (run_state _ _) as [t r p]; cbn in *; subst; reflexivity.
Defined.

(** C2. In a drag started in a blank area at [P0], whatever the selection
    state was before and whatever moves came first, a move at [P1]
    publishes on [updateSelectionRect] exactly one rectangle, with
    [left = min(P0.x, P1.x)], [top = min(P0.y, P1.y)],
    [width = |P1.x - P0.x|] and [height = |P1.y - P0.y|] (all zero-sized
    when [P0 = P1]), and the end of that drag publishes exactly [null]. *)
Theorem block_drag_publishes_rectangle
    (s0 : PageSelection) (env0 : Platform) (e0 : SelectionEvent)
    (mid : list Delivery) (env1 : Platform) (e1 : SelectionEvent) :
  isBlankArea env0 e0 = true ->
  forallb during_drag mid = true ->
  let s := run_state (mkDelivery DragStart env0 e0 :: mid) s0 in
  let P0 := pointOf e0 in
  let P1 := pointOf e1 in
  (exists rect,
      _onContainerDragMove e1 env1 s =
        mkRun (Normal tt) s [updateSelectionRect_emit (Some rect)] /\
      DOMRect.left rect = Z.min (x P0) (x P1) /\
      DOMRect.top rect = Z.min (y P0) (y P1) /\
      DOMRect.width rect = Z.abs (x P1 - x P0) /\
      DOMRect.height rect = Z.abs (y P1 - y P0) /\
      (P0 = P1 -> DOMRect.width rect = 0 /\ DOMRect.height rect = 0)) /\
  _onContainerDragEnd e1 env1 s =
    mkRun (Normal tt) (mkPageSelection none None None)
      [updateSelectionRect_emit None].
Proof.
  intros Hblank Hmid s P0 P1.
  assert (Hs : s = mkPageSelection block
                     (hitTest env0 (clientX (raw e0)) (clientY (raw e0)))
                     (Some P0)).
  { subst s. cbn [run_state]. rewrite during_drag_state by exact Hmid.
    unfold deliver; cbn [handler callback event env_at].
    rewrite dragStart_run, Hblank. reflexivity. }
  split.
  - exists (createSelectionRect P1 P0).
    rewrite dragMove_run, Hs; cbn [type].
    rewrite blockDragMove_run; cbn [startPoint _startPoint].
    split; [reflexivity|].
    destruct (createSelectionRect_getters P1 P0) as (Hl & Ht & Hw & Hh).
    repeat split; try assumption.
    + rewrite Hw, H. replace (x P1 - x P1) with 0 by lia. reflexivity.
    + rewrite Hh, H. replace (y P1 - y P1) with 0 by lia. reflexivity.
  - rewrite dragEnd_run, Hs. reflexivity.
Qed.

Lemma block_drag_publishes_rectangle_witness :
  let env := Sample.page "paragraph" in
  let s := mkPageSelection block (Some (Sample.caret Sample.textNode 10))
             (Some (mkPoint 10 10)) in
  _onContainerDragMove (Sample.at_ Sample.gap 50 80 false) env s =
    mkRun (Normal tt) s
      [updateSelectionRect_emit (Some (DOMRect.new 10 10 40 70))] /\
  calls (_onContainerDragEnd (Sample.at_ Sample.gap 50 80 false) env s) =
    [updateSelectionRect_emit None].
Proof.
  cbv zeta.
  destruct (block_drag_publishes_rectangle
              (newPageSelection none) (Sample.page "paragraph")
              (Sample.at_ Sample.gap 10 10 false) []
              (Sample.page "paragraph")
              (Sample.at_ Sample.gap 50 80 false) eq_refl eq_refl)
    as [[rect (Hmove & _)] Hend].
  split.
  - reflexivity.
  - change (calls (_onContainerDragEnd (Sample.at_ Sample.gap 50 80 false)
                     (Sample.page "paragraph")
                     (run_state
                        [mkDelivery DragStart (Sample.page "paragraph")
                           (Sample.at_ Sample.gap 10 10 false)]
                        (newPageSelection none)))
            = [updateSelectionRect_emit None]).
    rewrite Hend. reflexivity.
Defined.

(** C3. Over one whole drag, from any selection state: when its start is
    classified as content (native mode) no call on [updateSelectionRect]
    is made from the start through the end; when its start is classified
    as blank (block mode) no range is handed to [resetNativeSeletion] from
    the start through the end (the one call it gets there carries
    [null]). *)
Theorem drag_modes_keep_apart
    (s0 : PageSelection) (env0 : Platform) (e0 : SelectionEvent)
    (mid : list Delivery) (env1 : Platform) (e1 : SelectionEvent) :
  forallb during_drag mid = true ->
  let cs := run_calls (drag env0 e0 mid env1 e1) s0 in
  (isBlankArea env0 e0 = false ->
   forall rect, ~ In (updateSelectionRect_emit rect) cs) /\
  (isBlankArea env0 e0 = true ->
   forall r, ~ In (resetNativeSeletion_call (Some r)) cs).
Proof.
  intros Hmid cs; subst cs; unfold drag.
  cbn [run_calls]. rewrite run_calls_app. cbn [run_calls].
  unfold deliver at 1 2 3; cbn [handler callback event env_at].
  rewrite during_drag_state by exact Hmid.
  unfold deliver; cbn [handler callback event env_at].
  rewrite dragStart_run, dragEnd_run.
  split; intros Hblank; rewrite Hblank; cbn [selection calls type];
    intros v Hin;
    (apply in_app_or in Hin as [Hin|Hin];
     [ | apply in_app_or in Hin as [Hin|Hin] ]).
  - cbn in Hin; intuition discriminate.
  - revert Hin. apply native_drag_calls; [reflexivity | exact Hmid].
  - cbn in Hin; intuition discriminate.
  - cbn in Hin; intuition discriminate.
  - revert Hin. apply block_drag_calls; [reflexivity | exact Hmid].
  - cbn in Hin; intuition discriminate.
Qed.

Lemma drag_modes_keep_apart_witness :
  let env := Sample.page "paragraph" in
  (forall rect,
      ~ In (updateSelectionRect_emit rect)
          (run_calls
             (drag env (Sample.at_ Sample.richText 10 10 false)
                [mkDelivery DragMove env (Sample.at_ Sample.richText 50 80 false)]
                env (Sample.at_ Sample.richText 50 80 false))
             (newPageSelection none))) /\
  (forall r,
      ~ In (resetNativeSeletion_call (Some r))
          (run_calls
             (drag env (Sample.at_ Sample.gap 10 10 false)
                [mkDelivery DragMove env (Sample.at_ Sample.gap 50 80 false)]
                env (Sample.at_ Sample.gap 50 80 false))
             (newPageSelection none))).
Proof.
  cbv zeta. split.
  - apply (drag_modes_keep_apart (newPageSelection none)
             (Sample.page "paragraph") (Sample.at_ Sample.richText 10 10 false)
             [mkDelivery DragMove (Sample.page "paragraph")
                (Sample.at_ Sample.richText 50 80 false)]
             (Sample.page "paragraph") (Sample.at_ Sample.richText 50 80 false)
             eq_refl).
    reflexivity.
  - apply (drag_modes_keep_apart (newPageSelection none)
             (Sample.page "paragraph") (Sample.at_ Sample.gap 10 10 false)
             [mkDelivery DragMove (Sample.page "paragraph")
                (Sample.at_ Sample.gap 50 80 false)]
             (Sample.page "paragraph") (Sample.at_ Sample.gap 50 80 false)
             eq_refl).
    reflexivity.
Defined.

(** C4, as the code has it. [resetStartRange] carries no guard: a second
    capture with no [clear()] in between returns normally, makes no call
    but its hit test, and replaces both anchors by those of the new event;
    and a drag start captures once, or twice in a row when it lands in a
    blank area. *)
Theorem second_capture_overwrites
    (env1 env2 : Platform) (e1 e2 : SelectionEvent) (s : PageSelection) :
  let r1 := resetStartRange e1 env1 s in
  let r2 := resetStartRange e2 env2 (selection r1) in
  let hit2 := hitTest env2 (clientX (raw e2)) (clientY (raw e2)) in
  (completion r2 = Normal tt /\
   type (selection r2) = type s /\
   startRange (selection r2) = hit2 /\
   startPoint (selection r2) = Some (pointOf e2) /\
   calls r2 =
     [caretRangeFromPoint_call (clientX (raw e2)) (clientY (raw e2)) hit2]) /\
  (let hit1 := caretRangeFromPoint_call (clientX (raw e1)) (clientY (raw e1))
                 (hitTest env1 (clientX (raw e1)) (clientY (raw e1))) in
   completion (_onContainerDragStart e1 env1 s) = Normal tt /\
   calls (_onContainerDragStart e1 env1 s) =
     if isBlankArea env1 e1
     then [hit1; hit1; resetNativeSeletion_call None]
     else [hit1]).
Proof.
  cbv zeta. rewrite !resetStartRange_run, dragStart_run.
  split; [repeat split|].
  destruct (isBlankArea env1 e1); split; reflexivity.
Qed.

(** C4 as stated fails: captured at (3, 10) and again at (7, 20) with no
    [clear()] in between, the selection state ends up holding the second
    point and range, and nothing was thrown. *)
Lemma second_capture_does_not_fail :
  let env := Sample.page "paragraph" in
  let r1 := resetStartRange (Sample.at_ Sample.gap 3 10 false) env
              (newPageSelection none) in
  let r2 := resetStartRange (Sample.at_ Sample.gap 7 20 false) env
              (selection r1) in
  startPoint (selection r1) = Some (mkPoint 3 10) /\
  startRange (selection r1) = Some (Sample.caret Sample.textNode 3) /\
  completion r2 = Normal tt /\
  startPoint (selection r2) = Some (mkPoint 7 20) /\
  startRange (selection r2) = Some (Sample.caret Sample.textNode 7).
Proof. cbv zeta. repeat split. Qed.

(** C5, as the code has it. With the mode [none], a drag move returns
    normally, writes nothing and calls nothing; a drag end returns
    normally, calls nothing, and leaves the mode [none] with both anchors
    cleared. *)
Theorem move_and_end_without_start_are_ignored
    (env : Platform) (e : SelectionEvent) (s : PageSelection) :
  type s = none ->
  _onContainerDragMove e env s = mkRun (Normal tt) s [] /\
  _onContainerDragEnd e env s =
    mkRun (Normal tt) (mkPageSelection none None None) [].
Proof.
  intros Ht. rewrite dragMove_run, dragEnd_run, Ht. split; reflexivity.
Qed.

Lemma move_and_end_without_start_are_ignored_witness :
  _onContainerDragMove (Sample.at_ Sample.richText 50 80 false)
    (Sample.page "paragraph") (newPageSelection none) =
    mkRun (Normal tt) (newPageSelection none) [] /\
  _onContainerDragEnd (Sample.at_ Sample.richText 50 80 false)
    (Sample.page "paragraph") (newPageSelection none) =
    mkRun (Normal tt) (mkPageSelection none None None) [].
Proof.
  apply (move_and_end_without_start_are_ignored
           (Sample.page "paragraph") (Sample.at_ Sample.richText 50 80 false)
           (newPageSelection none)).
  reflexivity.
Defined.

(** C5 as stated fails: on the freshly constructed manager a drag move and
    a drag end both complete normally; neither throws. *)
Lemma move_and_end_without_start_do_not_throw :
  let env := Sample.page "paragraph" in
  let e := Sample.at_ Sample.richText 50 80 false in
  completion (_onContainerDragMove e env (newPageSelection none)) = Normal tt /\
  completion (_onContainerDragEnd e env (newPageSelection none)) = Normal tt /\
  (forall msg,
      completion (_onContainerDragMove e env (newPageSelection none))
      <> Throw msg) /\
  (forall msg,
      completion (_onContainerDragEnd e env (newPageSelection none))
      <> Throw msg).
Proof. cbv zeta. repeat split; discriminate. Qed.

(** C6, as the code has it. A native-mode move with an anchor range
    returns normally, writes nothing, and makes two calls: the hit test at
    the pointer position and [resetNativeSeletion] on its result after
    [setStart(anchor.startContainer, anchor.startOffset)] (on [null] when
    nothing was hit). The applied range starts at the anchor's start. No
    [setEnd] is made; the end is the resolved one when the anchor's start
    is not after it, and otherwise [setStart] has moved it onto the
    anchor's start as well. *)
Theorem native_drag_move_applies_anchor_start
    (env : Platform) (e : SelectionEvent) (s : PageSelection)
    (anchor : Range) :
  type s = native -> startRange s = Some anchor ->
  let hit := hitTest env (clientX (raw e)) (clientY (raw e)) in
  exists applied,
    _onContainerDragMove e env s =
      mkRun (Normal tt) s
        [caretRangeFromPoint_call (clientX (raw e)) (clientY (raw e)) hit;
         resetNativeSeletion_call applied] /\
    match hit, applied with
    | None, None => True
    | Some resolved, Some r =>
        startContainer r = startContainer anchor /\
        startOffset r = startOffset anchor /\
        match position env (startContainer anchor) (startOffset anchor)
                (endContainer resolved) (endOffset resolved) with
        | Some Lt | Some Eq =>
            endContainer r = endContainer resolved /\
            endOffset r = endOffset resolved
        | Some Gt | None =>
            endContainer r = startContainer anchor /\
            endOffset r = startOffset anchor
        end
    | _, _ => False
    end.
Proof.
  intros Ht Ha hit.
  rewrite dragMove_run, Ht, nativeDragMove_run, Ha.
  eexists; split; [reflexivity|].
  subst hit. destruct (hitTest env _ _) as [resolved|]; cbn [option_map];
    [|exact I].
  unfold setStart.
  destruct (position env _ _ _ _) as [[| |]|]; cbn; auto.
Qed.

Lemma native_drag_move_applies_anchor_start_witness :
  let env := Sample.page "paragraph" in
  let s := mkPageSelection native (Some (Sample.caret Sample.textNode 2))
             (Some (mkPoint 2 10)) in
  _onContainerDragMove (Sample.at_ Sample.richText 5 10 false) env s =
    mkRun (Normal tt) s
      [caretRangeFromPoint_call 5 10 (Some (Sample.caret Sample.textNode 5));
       resetNativeSeletion_call
         (Some (mkRange Sample.textNode 2 Sample.textNode 5))].
Proof.
  cbv zeta.
  destruct (native_drag_move_applies_anchor_start
              (Sample.page "paragraph") (Sample.at_ Sample.richText 5 10 false)
              (mkPageSelection native (Some (Sample.caret Sample.textNode 2))
                 (Some (mkPoint 2 10)))
              eq_refl eq_refl) as [applied [Hrun _]].
  reflexivity.
Defined.

(** C6 as stated fails: a drag anchored at offset 5 of a text node and
    moved back to offset 2 of the same node. The hit test resolves the
    collapsed range at offset 2; the range applied starts and ends at
    offset 5, so its end is not the resolved one. *)
Lemma backward_drag_moves_the_end :
  let env := Sample.page "paragraph" in
  let s := selection (_onContainerDragStart
                        (Sample.at_ Sample.richText 5 10 false) env
                        (newPageSelection none)) in
  let resolved := Sample.caret Sample.textNode 2 in
  let applied := mkRange Sample.textNode 5 Sample.textNode 5 in
  type s = native /\
  startRange s = Some (Sample.caret Sample.textNode 5) /\
  calls (_onContainerDragMove (Sample.at_ Sample.richText 2 10 false) env s) =
    [caretRangeFromPoint_call 2 10 (Some resolved);
     resetNativeSeletion_call (Some applied)] /\
  endOffset applied <> endOffset resolved.
Proof. cbv zeta. repeat split. discriminate. Qed.

(** C7, as the code has it. A click carrying the shift modifier returns
    early: it makes no call at all (no hit test, no selection applied, no
    caret placed, no element looked up) and leaves both anchors alone; the
    mode, written before the early exits, is [none] afterwards, so it is
    unchanged exactly when it was [none] already. *)
Theorem shift_click_only_resets_mode
    (env : Platform) (e : SelectionEvent) (s : PageSelection) :
  shift (keys e) = true ->
  _onContainerClick e env s =
    mkRun (Normal tt) (mkPageSelection none (_startRange s) (_startPoint s)) []
  /\ (type s = none -> selection (_onContainerClick e env s) = s).
Proof.
  intros Hshift.
  assert (H : _onContainerClick e env s =
              mkRun (Normal tt)
                (mkPageSelection none (_startRange s) (_startPoint s)) []).
  { step_handlers. rewrite Hshift.
    destruct (String.eqb _ _); [reflexivity|].
    destruct (instanceofHTMLInputElement _); reflexivity. }
  split; [exact H|].
  intros Ht. rewrite H. destruct s as [t r p]; cbn in *. subst t. reflexivity.
Qed.

Lemma shift_click_only_resets_mode_witness :
  _onContainerClick (Sample.at_ Sample.richText 10 10 true)
    (Sample.page "paragraph") (newPageSelection none) =
  mkRun (Normal tt) (newPageSelection none) [].
Proof.
  apply (shift_click_only_resets_mode (Sample.page "paragraph")
           (Sample.at_ Sample.richText 10 10 true) (newPageSelection none)
           eq_refl).
Defined.

(** C7 as stated fails: a shift-click that arrives while the mode is
    [native] (a drag was started on content and not yet ended) leaves the
    mode [none]. *)
Lemma shift_click_changes_mode :
  let env := Sample.page "paragraph" in
  let s := selection (_onContainerDragStart
                        (Sample.at_ Sample.richText 10 10 false) env
                        (newPageSelection none)) in
  let s' := selection (_onContainerClick
                         (Sample.at_ Sample.richText 10 10 true) env s) in
  type s = native /\ type s' = none /\ type s' <> type s.
Proof. cbv zeta. repeat split. discriminate. Qed.

(** C8, as the code has it. A click that passes the early exits and whose
    resolved start container is an element classified as the blank area
    after the last block (a [GROUP-BLOCK], and neither of the two blank
    containers tested first) returns normally, sets the mode to [none],
    and calls: the hit test; [resetNativeSeletion] on the resolved range;
    then, when the store's last child is a paragraph or a list, the lookup
    of its element and [focusRichTextByOffset] on that element with the
    click's [clientX]; and nothing more when the last child has another
    flavour or there is none. *)
Theorem click_after_last_block
    (env : Platform) (e : SelectionEvent) (s : PageSelection) (r : Range) :
  String.eqb (tagName (target (raw e))) "DEBUG-MENU" = false ->
  instanceofHTMLInputElement (target (raw e)) = false ->
  shift (keys e) = false ->
  hitTest env (clientX (raw e)) (clientY (raw e)) = Some r ->
  instanceofHTMLElement (startContainer r) = true ->
  isBlankAreaBetweenBlocks (startContainer r) = false ->
  isBlankAreaBeforeFirstBlock (startContainer r) = false ->
  isBlankAreaAfterLastBlock (startContainer r) = true ->
  let last := match root (store env) with
              | Some m => lastChild env m
              | None => None
              end in
  _onContainerClick e env s =
    mkRun (Normal tt) (mkPageSelection none (_startRange s) (_startPoint s))
      ([caretRangeFromPoint_call (clientX (raw e)) (clientY (raw e)) (Some r);
        resetNativeSeletion_call (Some r)]
       ++ match last with
          | Some l =>
              if String.eqb (flavour l) "paragraph"
                 || String.eqb (flavour l) "list"
              then [getBlockElementByModel_call l (blockElement env l);
                    focusRichTextByOffset_call (blockElement env l)
                      (clientX (raw e))]
              else []
          | None => []
          end).
Proof.
  intros Hdebug Hinput Hshift Hhit Helem Hbetween Hbefore Hafter last.
  subst last. step_handlers.
  rewrite Hdebug, Hinput, Hshift, Hhit. step_handlers.
  rewrite Helem. step_handlers.
  rewrite Hbetween, Hbefore, Hafter. cbn [orb]. step_handlers.
  destruct (match root (store env) with
            | Some m => lastChild env m
            | None => None
            end) as [l|]; [|reflexivity].
  destruct (String.eqb (flavour l) "paragraph" || String.eqb (flavour l) "list");
    reflexivity.
Qed.

Lemma click_after_last_block_witness :
  _onContainerClick (Sample.at_ Sample.groupBlock 30 150 false)
    (Sample.page "paragraph") (newPageSelection none) =
  mkRun (Normal tt) (newPageSelection none)
    [caretRangeFromPoint_call 30 150 (Some (Sample.caret Sample.groupBlock 0));
     resetNativeSeletion_call (Some (Sample.caret Sample.groupBlock 0));
     getBlockElementByModel_call (mkModel "2" "paragraph") Sample.paragraphBlock;
     focusRichTextByOffset_call Sample.paragraphBlock 30].
Proof.
  apply (click_after_last_block (Sample.page "paragraph")
           (Sample.at_ Sample.groupBlock 30 150 false) (newPageSelection none)
           (r := Sample.caret Sample.groupBlock 0)
           eq_refl eq_refl eq_refl eq_refl eq_refl eq_refl eq_refl eq_refl).
Defined.

(** C8 as stated fails: a click below the last block of a page whose last
    child is a group. No element is focused, yet the click is not a no-op:
    the resolved range is applied as the native selection. *)
Lemma click_in_dead_space_applies_range :
  let env := Sample.page "group" in
  let r := _onContainerClick (Sample.at_ Sample.groupBlock 30 150 false) env
             (newPageSelection none) in
  isBlankAreaAfterLastBlock Sample.groupBlock = true /\
  calls r =
    [caretRangeFromPoint_call 30 150 (Some (Sample.caret Sample.groupBlock 0));
     resetNativeSeletion_call (Some (Sample.caret Sample.groupBlock 0))] /\
  calls r <> [] /\
  nativeSelectionAfter Cleared (calls r) =
    Applied (Sample.caret Sample.groupBlock 0).
Proof. cbv zeta. repeat split. discriminate. Qed.

(** C9. In a native-mode move, whenever the hit test at the pointer
    position is made and resolves to nothing, the move returns normally
    with exactly two calls, that hit test and [resetNativeSeletion(null)];
    whatever the native selection was before, it is cleared afterwards. *)
Theorem native_move_off_text_clears_selection
    (env : Platform) (e : SelectionEvent) (s : PageSelection) :
  type s = native ->
  In (caretRangeFromPoint_call (clientX (raw e)) (clientY (raw e)) None)
     (calls (_onContainerDragMove e env s)) ->
  _onContainerDragMove e env s =
    mkRun (Normal tt) s
      [caretRangeFromPoint_call (clientX (raw e)) (clientY (raw e)) None;
       resetNativeSeletion_call None] /\
  forall before,
    nativeSelectionAfter before (calls (_onContainerDragMove e env s))
    = Cleared.
Proof.
  intros Ht. rewrite dragMove_run, Ht, nativeDragMove_run.
  destruct (startRange s) as [anchor|]; cbn [calls]; [|intros []].
  intros [Hin|[Hin|[]]]; [|discriminate Hin].
  injection Hin as ->. split; [reflexivity|]. intros before; reflexivity.
Qed.

Lemma native_move_off_text_clears_selection_witness :
  let s := mkPageSelection native (Some (Sample.caret Sample.textNode 5))
             (Some (mkPoint 5 10)) in
  nativeSelectionAfter
    (Applied (mkRange Sample.textNode 5 Sample.textNode 9))
    (calls (_onContainerDragMove (Sample.at_ Sample.richText 9 (-3) false)
              (Sample.page "paragraph") s))
  = Cleared.
Proof.
  cbv zeta.
  apply (native_move_off_text_clears_selection
           (Sample.page "paragraph") (Sample.at_ Sample.richText 9 (-3) false)
           (mkPageSelection native (Some (Sample.caret Sample.textNode 5))
              (Some (mkPoint 5 10)))
           eq_refl).
  cbn. left. reflexivity.
Defined.

(** C10. A drag start on content whose hit test resolves to nothing
    returns normally and leaves the mode [native] with a null anchor
    range; the move that follows throws from [assertExists], having
    written nothing and called nothing. *)
Theorem native_move_without_anchor_range_throws
    (env0 : Platform) (e0 : SelectionEvent) (s0 : PageSelection)
    (env1 : Platform) (e1 : SelectionEvent) :
  isBlankArea env0 e0 = false ->
  hitTest env0 (clientX (raw e0)) (clientY (raw e0)) = None ->
  let r0 := _onContainerDragStart e0 env0 s0 in
  completion r0 = Normal tt /\
  type (selection r0) = native /\
  startRange (selection r0) = None /\
  exists msg,
    _onContainerDragMove e1 env1 (selection r0) =
      mkRun (Throw msg) (selection r0) [].
Proof.
  intros Hblank Hhit r0; subst r0.
  rewrite dragStart_run, Hblank, Hhit; cbn [completion selection].
  repeat split. eexists.
  rewrite dragMove_run; cbn [type]. rewrite nativeDragMove_run.
  reflexivity.
Qed.

Lemma native_move_without_anchor_range_throws_witness :
  let env := Sample.page "paragraph" in
  let r0 := _onContainerDragStart (Sample.at_ Sample.richText 9 (-3) false)
              env (newPageSelection none) in
  completion r0 = Normal tt /\
  completion (_onContainerDragMove (Sample.at_ Sample.richText 9 5 false)
                env (selection r0)) = Throw "val does not exist".
Proof.
  cbv zeta.
  destruct (native_move_without_anchor_range_throws
              (Sample.page "paragraph")
              (Sample.at_ Sample.richText 9 (-3) false)
              (newPageSelection none)
              (Sample.page "paragraph")
              (Sample.at_ Sample.richText 9 5 false)
              eq_refl eq_refl) as (H0 & _ & _ & msg & Hmove).
  split; [exact H0|]. reflexivity.
Defined.

(** ** Worked examples on the sample page *)

Example includes_examples :
  includes "lit affine-group-block-container" "affine-group-block-container"
  = true /\
  includes "affine-rich-text" "affine-group-block-container" = false /\
  includes "" "" = true.
Proof. repeat split. Qed.

(** A drag from (10, 10) to (50, 80) over the gap between two blocks: two
    hit tests and a cleared native selection at the start, one rectangle on
    the move, [null] at the end. *)
Example block_drag_trace :
  let env := Sample.page "paragraph" in
  run_calls
    (drag env (Sample.at_ Sample.gap 10 10 false)
       [mkDelivery DragMove env (Sample.at_ Sample.gap 50 80 false)]
       env (Sample.at_ Sample.gap 50 80 false))
    (newPageSelection none) =
  [caretRangeFromPoint_call 10 10 (Some (Sample.caret Sample.textNode 10));
   caretRangeFromPoint_call 10 10 (Some (Sample.caret Sample.textNode 10));
   resetNativeSeletion_call None;
   updateSelectionRect_emit (Some (DOMRect.new 10 10 40 70));
   updateSelectionRect_emit None].
Proof. reflexivity. Qed.

(** The same drag over text: one hit test at the start, a hit test and an
    applied range on the move, nothing at the end. *)
Example native_drag_trace :
  let env := Sample.page "paragraph" in
  run_calls
    (drag env (Sample.at_ Sample.richText 10 10 false)
       [mkDelivery DragMove env (Sample.at_ Sample.richText 50 80 false)]
       env (Sample.at_ Sample.richText 50 80 false))
    (newPageSelection none) =
  [caretRangeFromPoint_call 10 10 (Some (Sample.caret Sample.textNode 10));
   caretRangeFromPoint_call 50 80 (Some (Sample.caret Sample.textNode 50));
   resetNativeSeletion_call
     (Some (mkRange Sample.textNode 10 Sample.textNode 50))].
Proof. reflexivity. Qed.

(** * Further properties of the code *)

(** ** [createSelectionRect] *)

(** X1. The rectangle does not depend on which of the two points is the
    current one and which the start. *)
Theorem createSelectionRect_symmetric (a b : Point) :
  createSelectionRect a b = createSelectionRect b a.
Proof.
  unfold createSelectionRect; cbv zeta.
  f_equal; lia.
Qed.


(** X3. The rectangle has no width exactly when the two points share
    their horizontal coordinate, no height exactly when they share the
    vertical one, and is a single point exactly when the points are
    equal. *)
Theorem createSelectionRect_degenerate (current start : Point) :
  let rect := createSelectionRect current start in
  (DOMRect.width rect = 0 <-> x current = x start) /\
  (DOMRect.height rect = 0 <-> y current = y start) /\
  (DOMRect.width rect = 0 /\ DOMRect.height rect = 0 <-> current = start).
Proof.
  unfold createSelectionRect; cbn.
  destruct current as [cx cy], start as [sx sy]; cbn.
  repeat split; intros; try lia.
  - destruct H. f_equal; lia.
  - injection H as -> ->. lia.
  - injection H as -> ->. lia.
Qed.

(** ** The drag handlers *)


(** X5. A drag end returns the selection state to the freshly constructed
    one after any sequence of deliveries at all, in or out of protocol,
    from any state; a second drag end right after it changes nothing and
    calls nothing. *)
Theorem drag_end_resets_after_anything
    (ds : list Delivery) (env env' : Platform) (e e' : SelectionEvent)
    (s : PageSelection) :
  let s1 := run_state (ds ++ [mkDelivery DragEnd env e]) s in
  s1 = newPageSelection none /\
  deliver (mkDelivery DragEnd env' e') s1 =
    mkRun (Normal tt) (newPageSelection none) [].
Proof.
  cbv zeta. rewrite run_state_app. cbn [run_state].
  unfold deliver; cbn [handler callback event env_at].
  rewrite !dragEnd_run. cbn. split; reflexivity.
Qed.









Lemma block_mid_calls (P0 : Point) (mid : list Delivery) (s : PageSelection) :
  type s = block -> startPoint s = Some P0 ->
  forallb during_drag mid = true ->
  run_calls mid s =
  flat_map
    (fun d =>
       match callback d with
       | DragMove =>
           [updateSelectionRect_emit
              (Some (createSelectionRect (pointOf (event d)) P0))]
       | _ => []
       end) mid.
Proof.
  intros Ht Hp; induction mid as [|d mid IH]; cbn [forallb run_calls flat_map];
    [reflexivity|].
  intros H; apply andb_prop in H as [Hd Hmid].
  rewrite during_drag_selection by exact Hd. rewrite (IH Hmid). f_equal.
  destruct d as [k env e]; unfold during_drag, deliver in *;
    cbn [callback event env_at] in *.
  destruct k; try discriminate; cbn [handler]; try reflexivity.
  rewrite dragMove_run, Ht, blockDragMove_run, Hp. reflexivity.
Qed.

(** X9. The calls of a whole block drag, from any state before it: the
    hit test twice and [resetNativeSeletion(null)] at the start; then one
    rectangle per drag move, in order, each spanned by that move's point
    and the start's point, and nothing for the inert callbacks; then
    [null] at the end. *)
Theorem block_drag_emits_one_rectangle_per_move
    (s0 : PageSelection) (env0 : Platform) (e0 : SelectionEvent)
    (mid : list Delivery) (env1 : Platform) (e1 : SelectionEvent) :
  isBlankArea env0 e0 = true ->
  forallb during_drag mid = true ->
  let hit0 := caretRangeFromPoint_call (clientX (raw e0)) (clientY (raw e0))
                (hitTest env0 (clientX (raw e0)) (clientY (raw e0))) in
  run_calls (drag env0 e0 mid env1 e1) s0 =
  [hit0; hit0; resetNativeSeletion_call None]
  ++ flat_map
       (fun d =>
          match callback d with
          | DragMove =>
              [updateSelectionRect_emit
                 (Some (createSelectionRect (pointOf (event d)) (pointOf e0)))]
          | _ => []
          end) mid
  ++ [updateSelectionRect_emit None].
Proof.
  intros Hblank Hmid hit0; subst hit0; unfold drag.
  cbn [run_calls]. rewrite run_calls_app. cbn [run_calls].
  unfold deliver at 1 2 3; cbn [handler callback event env_at].
  rewrite during_drag_state by exact Hmid.
  unfold deliver; cbn [handler callback event env_at].
  rewrite dragStart_run, dragEnd_run, Hblank; cbn [selection calls type].
  rewrite (block_mid_calls (P0 := pointOf e0)) by (reflexivity || exact Hmid).
  rewrite app_nil_r. reflexivity.
Qed.

Lemma block_drag_emits_one_rectangle_per_move_witness :
  let env := Sample.page "paragraph" in
  run_calls
    (drag env (Sample.at_ Sample.gap 10 10 false)
       [mkDelivery DragMove env (Sample.at_ Sample.gap 50 80 false);
        mkDelivery MouseMove env (Sample.at_ Sample.gap 60 80 false);
        mkDelivery DragMove env (Sample.at_ Sample.gap 5 90 false)]
       env (Sample.at_ Sample.gap 5 90 false))
    (newPageSelection none) =
  [caretRangeFromPoint_call 10 10 (Some (Sample.caret Sample.textNode 10));
   caretRangeFromPoint_call 10 10 (Some (Sample.caret Sample.textNode 10));
   resetNativeSeletion_call None;
   updateSelectionRect_emit (Some (DOMRect.new 10 10 40 70));
   updateSelectionRect_emit (Some (DOMRect.new 5 10 5 80));
   updateSelectionRect_emit None].
Proof.
  cbv zeta.
  rewrite (block_drag_emits_one_rectangle_per_move (newPageSelection none)
             (Sample.page "paragraph") (Sample.at_ Sample.gap 10 10 false)
             [mkDelivery DragMove (Sample.page "paragraph")
                (Sample.at_ Sample.gap 50 80 false);
              mkDelivery MouseMove (Sample.page "paragraph")
                (Sample.at_ Sample.gap 60 80 false);
              mkDelivery DragMove (Sample.page "paragraph")
                (Sample.at_ Sample.gap 5 90 false)]
             (Sample.page "paragraph") (Sample.at_ Sample.gap 5 90 false)
             eq_refl eq_refl).
  reflexivity.
Defined.

Lemma setStart_start (env : Platform) (r : Range) (node : Node) (offset : Z) :
  startContainer (setStart env r node offset) = node /\
  startOffset (setStart env r node offset) = offset.
Proof.
  unfold setStart. destruct (position env _ _ _ _) as [[| |]|]; cbn; auto.
Qed.

Lemma native_mid_calls (anchor : Range) (mid : list Delivery)
    (s : PageSelection) :
  type s = native -> startRange s = Some anchor ->
  forallb during_drag mid = true ->
  forall r,
    In (resetNativeSeletion_call (Some r)) (run_calls mid s) ->
    startContainer r = startContainer anchor /\
    startOffset r = startOffset anchor.
Proof.
  intros Ht Ha; induction mid as [|d mid IH]; cbn [forallb run_calls];
    [intros _ r []|].
  intros H r Hin; apply andb_prop in H as [Hd Hmid].
  rewrite during_drag_selection in Hin by exact Hd.
  apply in_app_or in Hin as [Hin|Hin]; [|exact (IH Hmid r Hin)].
  destruct d as [k env e]; unfold during_drag, deliver in *;
    cbn [callback event env_at] in *.
  destruct k; try discriminate; cbn [handler] in Hin; try contradiction.
  rewrite dragMove_run, Ht, nativeDragMove_run, Ha in Hin.
  cbn [calls] in Hin. destruct Hin as [Hin|[Hin|[]]]; [discriminate Hin|].
  destruct (hitTest env _ _) as [resolved|]; cbn in Hin; [|discriminate Hin].
  injection Hin as <-. apply setStart_start.
Qed.

(** X10. Over a whole drag started on content where the hit test resolved
    an anchor, from any state before it: every range handed to
    [resetNativeSeletion], at whichever move, starts at the anchor's start
    container and offset. *)
Theorem native_drag_ranges_start_at_anchor
    (s0 : PageSelection) (env0 : Platform) (e0 : SelectionEvent)
    (mid : list Delivery) (env1 : Platform) (e1 : SelectionEvent)
    (anchor r : Range) :
  isBlankArea env0 e0 = false ->
  hitTest env0 (clientX (raw e0)) (clientY (raw e0)) = Some anchor ->
  forallb during_drag mid = true ->
  In (resetNativeSeletion_call (Some r))
     (run_calls (drag env0 e0 mid env1 e1) s0) ->
  startContainer r = startContainer anchor /\
  startOffset r = startOffset anchor.
Proof.
  intros Hblank Hhit Hmid; unfold drag.
  cbn [run_calls]. rewrite run_calls_app. cbn [run_calls].
  unfold deliver at 1 2 3; cbn [handler callback event env_at].
  rewrite during_drag_state by exact Hmid.
  unfold deliver; cbn [handler callback event env_at].
  rewrite dragStart_run, dragEnd_run, Hblank, Hhit;
    cbn [selection calls type].
  intros Hin.
  apply in_app_or in Hin as [Hin|Hin];
    [ | apply in_app_or in Hin as [Hin|Hin] ].
  - cbn in Hin; intuition discriminate.
  - revert Hin. apply native_mid_calls; [reflexivity | reflexivity | exact Hmid].
  - cbn in Hin; intuition discriminate.
Qed.

Lemma native_drag_ranges_start_at_anchor_witness :
  startContainer (mkRange Sample.textNode 10 Sample.textNode 50)
  = Sample.textNode /\
  startOffset (mkRange Sample.textNode 10 Sample.textNode 50) = 10.
Proof.
  apply (@native_drag_ranges_start_at_anchor (newPageSelection none)
           (Sample.page "paragraph") (Sample.at_ Sample.richText 10 10 false)
           [mkDelivery DragMove (Sample.page "paragraph")
              (Sample.at_ Sample.richText 50 80 false)]
           (Sample.page "paragraph") (Sample.at_ Sample.richText 50 80 false)
           (Sample.caret Sample.textNode 10)
           (mkRange Sample.textNode 10 Sample.textNode 50)
           eq_refl eq_refl eq_refl).
  cbn. right. right. left. reflexivity.
Defined.

(** ** The click handler *)



(** X12. A click that passes the early exits and does not resolve into an
    HTML element makes the hit test and, when that resolved a range (on
    text, say), applies it; it makes no other call. When nothing was
    resolved nothing is applied. *)
Theorem click_off_elements_only_applies_range
    (env : Platform) (e : SelectionEvent) (s : PageSelection) :
  String.eqb (tagName (target (raw e))) "DEBUG-MENU" = false ->
  instanceofHTMLInputElement (target (raw e)) = false ->
  shift (keys e) = false ->
  let hit := hitTest env (clientX (raw e)) (clientY (raw e)) in
  asHTMLElement (option_map startContainer hit) = None ->
  _onContainerClick e env s =
    mkRun (Normal tt) (mkPageSelection none (_startRange s) (_startPoint s))
      (caretRangeFromPoint_call (clientX (raw e)) (clientY (raw e)) hit
       :: match hit with
          | Some r => [resetNativeSeletion_call (Some r)]
          | None => []
          end).
Proof.
  intros Hdebug Hinput Hshift hit Hnone; subst hit.
  step_handlers. rewrite Hdebug, Hinput, Hshift. step_handlers.
  destruct (hitTest env _ _) as [r|]; step_handlers; [|reflexivity].
  cbn [asHTMLElement option_map] in Hnone.
  destruct (instanceofHTMLElement (startContainer r)); [discriminate Hnone|].
  reflexivity.
Qed.

Lemma click_off_elements_only_applies_range_witness :
  calls (_onContainerClick (Sample.at_ Sample.richText 7 10 false)
           (Sample.page "paragraph") (newPageSelection none)) =
  [caretRangeFromPoint_call 7 10 (Some (Sample.caret Sample.textNode 7));
   resetNativeSeletion_call (Some (Sample.caret Sample.textNode 7))] /\
  calls (_onContainerClick (Sample.at_ Sample.richText 7 (-3) false)
           (Sample.page "paragraph") (newPageSelection none)) =
  [caretRangeFromPoint_call 7 (-3) None].
Proof.
  split.
  - rewrite (click_off_elements_only_applies_range
               (Sample.page "paragraph") (Sample.at_ Sample.richText 7 10 false)
               (newPageSelection none) eq_refl eq_refl eq_refl eq_refl).
    reflexivity.
  - rewrite (click_off_elements_only_applies_range
               (Sample.page "paragraph")
               (Sample.at_ Sample.richText 7 (-3) false)
               (newPageSelection none) eq_refl eq_refl eq_refl eq_refl).
    reflexivity.
Defined.

(** X13. A click whose target is the debug menu or a native input element
    makes no call at all, with or without the shift modifier; it returns
    with the mode [none] and the anchors as they were. *)
Theorem click_on_chrome_makes_no_call
    (env : Platform) (e : SelectionEvent) (s : PageSelection) :
  tagName (target (raw e)) = "DEBUG-MENU" \/
  instanceofHTMLInputElement (target (raw e)) = true ->
  _onContainerClick e env s =
    mkRun (Normal tt) (mkPageSelection none (_startRange s) (_startPoint s)) [].
Proof.
  intros H. step_handlers.
  destruct H as [H|H].
  - rewrite H. reflexivity.
  - rewrite H. destruct (String.eqb _ _); reflexivity.
Qed.

Lemma click_on_chrome_makes_no_call_witness :
  _onContainerClick
    (Sample.at_ (mkNode 9 HTMLInputElementClass "INPUT" "") 7 10 false)
    (Sample.page "paragraph") (newPageSelection none) =
  mkRun (Normal tt) (newPageSelection none) [].
Proof.
  apply (click_on_chrome_makes_no_call (Sample.page "paragraph")
           (Sample.at_ (mkNode 9 HTMLInputElementClass "INPUT" "") 7 10 false)
           (newPageSelection none)).
  right. reflexivity.
Defined.

(** What a click does, in any state. *)
Lemma click_calls_facts
    (env : Platform) (e : SelectionEvent) (s : PageSelection) :
  let r := _onContainerClick e env s in
  completion r = Normal tt /\
  selection r = mkPageSelection none (_startRange s) (_startPoint s) /\
  (forall rect, ~ In (updateSelectionRect_emit rect) (calls r)) /\
  (forall v,
      In (resetNativeSeletion_call v) (calls r) ->
      v <> None /\ v = hitTest env (clientX (raw e)) (clientY (raw e))) /\
  (forall el cx,
      In (focusRichTextByOffset_call el cx) (calls r) ->
      cx = clientX (raw e) /\
      In (resetNativeSeletion_call
            (hitTest env (clientX (raw e)) (clientY (raw e)))) (calls r)).
Proof.
  cbv zeta.
  destruct (click_selection env e s) as [Hc Hs].
  split; [exact Hc|]. split; [exact Hs|]. clear Hc Hs.
  step_handlers.
  destruct (String.eqb _ _); [cbn; intuition|].
  destruct (instanceofHTMLInputElement _); [cbn; intuition|].
  destruct (shift _); [cbn; intuition|].
  destruct (hitTest env _ _) as [r|]; step_handlers;
    [|cbn; intuition discriminate].
  split_branches; cbn [In]; unfold not;
    (split; [|split]); intros;
    repeat match goal with
           | H : _ \/ _ |- _ => destruct H
           | H : False |- _ => destruct H
           | H : @eq Call _ _ |- _ =>
               first [discriminate H | injection H as ? ? | injection H as ?]
           end; subst; repeat split; auto; try discriminate.
Qed.


(** X15. A click that arrives after a drag start with no drag end in
    between resets the mode but clears neither anchor: the state is then
    mode [none] with the anchor point and range of that start still in
    place, and drag moves that follow are ignored. *)
Theorem click_mid_drag_leaves_anchors
    (s0 : PageSelection) (env0 env1 env2 : Platform)
    (e0 e1 e2 : SelectionEvent) :
  let s := run_state [mkDelivery DragStart env0 e0; mkDelivery Click env1 e1]
             s0 in
  s = mkPageSelection none
        (hitTest env0 (clientX (raw e0)) (clientY (raw e0)))
        (Some (pointOf e0)) /\
  deliver (mkDelivery DragMove env2 e2) s = mkRun (Normal tt) s [].
Proof.
  cbv zeta. cbn [run_state]. unfold deliver; cbn [handler callback event env_at].
  destruct (click_selection env1 e1 (selection (_onContainerDragStart e0 env0 s0)))
    as [_ ->].
  rewrite dragStart_run, dragMove_run.
  destruct (isBlankArea env0 e0); cbn; split; reflexivity.
Qed.

(** ** Sequences of callbacks *)

(** X16. Double clicks, mouse moves and mouse outs can be dropped from any
    sequence of deliveries: the selection state reached and the calls made
    are the same without them. *)
Theorem inert_callbacks_can_be_dropped
    (ds : list Delivery) (s : PageSelection) :
  run_state ds s = run_state (filter (fun d => negb (inert d)) ds) s /\
  run_calls ds s = run_calls (filter (fun d => negb (inert d)) ds) s.
Proof.
  revert s; induction ds as [|d ds IH]; intros s; [split; reflexivity|].
  cbn [filter]. destruct (inert d) eqn:Hi; cbn [negb run_state run_calls].
  - assert (Hd : deliver d s = mkRun (Normal tt) s []).
    { destruct d as [k env e]; unfold inert, deliver in *;
        cbn [callback event env_at] in *.
      destruct k; try discriminate; reflexivity. }
    rewrite Hd; cbn [selection calls app]. apply IH.
  - destruct (IH (selection (deliver d s))) as [-> ->]. split; reflexivity.
Qed.

(** X17. A value is emitted on [updateSelectionRect] only while the mode
    is [block]: a rectangle only by a drag move, [null] only by a drag
    end. A drag start, a click and the inert callbacks never emit. *)
Theorem rect_emitted_only_in_block_mode
    (d : Delivery) (s : PageSelection) (rect : option DOMRect.t) :
  In (updateSelectionRect_emit rect) (calls (deliver d s)) ->
  type s = block /\
  ((callback d = DragMove /\ rect <> None) \/
   (callback d = DragEnd /\ rect = None)).
Proof.
  destruct d as [k env e]; unfold deliver; cbn [handler callback event env_at].
  destruct k; cbn [handler].
  - rewrite dragStart_run. destruct (isBlankArea env e); cbn;
      intuition discriminate.
  - rewrite dragMove_run. destruct (type s) eqn:Ht.
    + rewrite nativeDragMove_run. destruct (startRange s); cbn;
        intuition discriminate.
    + rewrite blockDragMove_run. destruct (startPoint s); cbn;
        [|intros []].
      intros [H|[]]. injection H as <-. split; [reflexivity|].
      left. split; [reflexivity | discriminate].
    + intros [].
  - rewrite dragEnd_run. destruct (type s) eqn:Ht; cbn;
      [intros [] | | intros []].
    intros [H|[]]. injection H as <-. auto.
  - intros Hin. exfalso. revert Hin.
    apply (click_calls_facts env e s).
  - intros [].
  - intros [].
  - intros [].
Qed.

Lemma rect_emitted_only_in_block_mode_witness :
  type (mkPageSelection block None (Some (mkPoint 10 10))) = block.
Proof.
  apply (@rect_emitted_only_in_block_mode
           (mkDelivery DragMove (Sample.page "paragraph")
              (Sample.at_ Sample.gap 50 80 false))
           (mkPageSelection block None (Some (mkPoint 10 10)))
           (Some (DOMRect.new 10 10 40 70))).
  cbn. left. reflexivity.
Defined.

(** ** The classification predicates *)

Lemma prefix_spec (p s : string) :
  String.prefix p s = true <-> exists post, s = (p ++ post)%string.
Proof.
  revert s; induction p as [|a p IH]; intros s; cbn.
  - destruct s; split; eauto.
  - destruct s as [|b s]; cbn.
    + split; [discriminate | intros [post H]; discriminate H].
    + destruct (Ascii.ascii_dec a b) as [->|Hne].
      * rewrite IH. split; intros [post H]; exists post; congruence.
      * split; [discriminate | intros [post H]; congruence].
Qed.

Lemma includes_spec (s pat : string) :
  includes s pat = true <->
  exists pre post, s = (pre ++ pat ++ post)%string.
Proof.
  unfold includes. induction s as [|b s IH].
  - cbn. destruct pat as [|a pat].
    + split; [intros _; exists "", ""; reflexivity | reflexivity].
    + split; [discriminate|].
      intros (pre & post & H). destruct pre; discriminate H.
  - cbn [String.index].
    destruct (String.prefix pat (String b s)) eqn:Hp.
    + split; [intros _ | reflexivity].
      apply prefix_spec in Hp as [post Hpost].
      exists "", post. exact Hpost.
    + destruct (String.index 0 pat s) as [n|].
      * split; [intros _ | reflexivity].
        destruct IH as [IH _]. destruct (IH eq_refl) as (pre & post & ->).
        exists (String b pre), post. reflexivity.
      * split; [discriminate|].
        intros (pre & post & H). destruct pre as [|c pre].
        -- cbn in H. assert (Hp' : String.prefix pat (String b s) = true)
             by (apply prefix_spec; exists post; exact H).
           congruence.
        -- cbn in H. injection H as _ ->.
           destruct IH as [_ IH]. discriminate IH. eauto.
Qed.

(** X18. What the three predicates on a resolved container decide. The
    between-blocks and before-first-block tests hold exactly for an HTML
    element whose class name contains
    [affine-paragraph-block-container], respectively
    [affine-group-block-container], anywhere in it; a node that is not an
    HTML element passes neither, whatever its class name. The
    after-last-block test holds exactly when the tag name is
    [GROUP-BLOCK], and looks at nothing else. *)
Theorem blank_area_predicates (n : Node) :
  (isBlankAreaBetweenBlocks n = true <->
   instanceofHTMLElement n = true /\
   exists pre post,
     className n = (pre ++ "affine-paragraph-block-container" ++ post)%string)
  /\
  (isBlankAreaBeforeFirstBlock n = true <->
   instanceofHTMLElement n = true /\
   exists pre post,
     className n = (pre ++ "affine-group-block-container" ++ post)%string)
  /\
  (isBlankAreaAfterLastBlock n = true <-> tagName n = "GROUP-BLOCK").
Proof.
  unfold isBlankAreaBetweenBlocks, isBlankAreaBeforeFirstBlock,
    isBlankAreaAfterLastBlock.
  split; [|split].
  - destruct (instanceofHTMLElement n); cbn [negb].
    + rewrite includes_spec. intuition.
    + split; [discriminate | intros [H _]; discriminate H].
  - destruct (instanceofHTMLElement n); cbn [negb].
    + rewrite includes_spec. intuition.
    + split; [discriminate | intros [H _]; discriminate H].
  - apply String.eqb_eq.
Qed.

(** ** Capture and clear *)

(** X19. [clear] undoes a capture as far as the state goes: capturing and
    then clearing leaves the state that clearing alone leaves, with the
    mode untouched and both anchors null, and the hit test as the only
    call; clearing twice is clearing once; and a capture after a clear
    holds the new event's anchors only. *)
Theorem capture_then_clear_round_trip
    (env : Platform) (e1 e2 : SelectionEvent) (s : PageSelection) :
  let captured_cleared := (resetStartRange e1 ;; clear) env s in
  selection captured_cleared = selection (clear env s) /\
  selection (clear env s) = mkPageSelection (type s) None None /\
  calls captured_cleared =
    [caretRangeFromPoint_call (clientX (raw e1)) (clientY (raw e1))
       (hitTest env (clientX (raw e1)) (clientY (raw e1)))] /\
  (clear ;; clear) env s = clear env s /\
  selection ((resetStartRange e1 ;; clear ;; resetStartRange e2) env s) =
    mkPageSelection (type s)
      (hitTest env (clientX (raw e2)) (clientY (raw e2)))
      (Some (pointOf e2)).
Proof. cbv zeta. repeat split. Qed.

(** X20. What a drag start does to the native selection, whatever it was
    before: started in a blank area it clears it; started on content it
    leaves it as it was. *)
Theorem drag_start_clears_selection_only_in_blank_area
    (env : Platform) (e : SelectionEvent) (s : PageSelection)
    (before : NativeSelection) :
  nativeSelectionAfter before (calls (_onContainerDragStart e env s)) =
  if isBlankArea env e then Cleared else before.
Proof.
  rewrite dragStart_run. destruct (isBlankArea env e); reflexivity.
Qed.
